(** * go-tracker: the project-scoped client ([project_client.go])

    A shallow embedding of [ProjectClient] and of its resource operations.
    The transport ([connection]) is an interface of the source; it is kept
    abstract here and threaded through every operation as explicit state. *)

From Stdlib Require Import ZArith List Ascii String.
From stdpp Require Import base strings gmap fin_maps pretty.
Import ListNotations.

Local Open Scope string_scope.
Local Open Scope Z_scope.

(** ** Go values *)

(** Go's [int] is read as [Z] (no arithmetic is performed on it in this file,
    only [%d] formatting). *)
Abbreviation int := Z (only parsing).

(** [fmt.Sprintf("%d", n)]: base 10, a leading [-] for negative numbers. *)
Definition fmt_d (n : int) : string := pretty n.

(** A slice is [nil] ([None]) or a possibly empty sequence ([Some l]). *)
Definition slice (A : Type) : Type := option (list A).

(** The zero value every Go type has. *)
Class Zero (A : Type) := zero : A.
Global Hint Mode Zero ! : typeclass_instances.

Global Instance slice_Zero {A} : Zero (slice A) := None.
Global Instance unit_Zero : Zero unit := tt.

(** [url.Values] and [http.Header] are both [map[string][]string]. *)
Abbreviation url_Values := (gmap string (list string)) (only parsing).
Abbreviation http_Header := (gmap string (list string)) (only parsing).

(** [url.Values.Set(key, value)]: replaces whatever the key held. *)
Definition Values_Set (key value : string) (v : url_Values) : url_Values :=
  <[key := [value]]> v.

(** [http.Header.Add(key, value)]: appends to the values of the key. The only
    key used below is already in canonical MIME form. *)
Definition Header_Add (key value : string) (h : http_Header) : http_Header :=
  <[key := (default [] (h !! key) ++ [value])%list]> h.

(** [http.Header.Get(key)]: the first value of the key, or the empty string. *)
Definition Header_Get (key : string) (h : http_Header) : string :=
  match h !! key with
  | Some (v :: _) => v
  | _ => ""
  end.

(** ** Iteration scopes and the iterations query *)

Definition IterationScope : Type := string.

Definition IterationScopeDone : IterationScope := "done".
Definition IterationScopeCurrent : IterationScope := "current".
Definition IterationScopeBacklog : IterationScope := "backlog".
Definition IterationScopeCurrentBacklog : IterationScope := "current_backlog".
Definition IterationScopeDoneCurrent : IterationScope := "done_current".

Record IterationsQuery : Type := mkIterationsQuery {
  Scope : IterationScope;
  Label : string;
  Limit : int;
  Offset : int
}.

Global Instance IterationsQuery_Zero : Zero IterationsQuery :=
  {| Scope := ""; Label := ""; Limit := 0; Offset := 0 |}.

(** The [Query() url.Values] method shared by all query types. *)
Class Querier (Q : Type) := Query : Q -> url_Values.
Global Hint Mode Querier ! : typeclass_instances.

Definition IterationsQuery_Query (query : IterationsQuery) : url_Values :=
  let params : url_Values := ∅ in
  let params :=
    if decide (Scope query ≠ "") then Values_Set "scope" (Scope query) params
    else params in
  let params :=
    if decide (Label query ≠ "") then Values_Set "label" (Label query) params
    else params in
  let params :=
    if decide (Limit query ≠ 0) then Values_Set "limit" (fmt_d (Limit query)) params
    else params in
  let params :=
    if decide (Offset query ≠ 0) then Values_Set "offset" (fmt_d (Offset query)) params
    else params in
  params.

Global Instance IterationsQuery_Querier : Querier IterationsQuery :=
  IterationsQuery_Query.

(** ** Types of the package that other files declare

    [Story], [Task], [Comment], [Blocker], [Activity], [ProjectMembership],
    [Pagination], the query types other than [IterationsQuery] and the
    [connection] interface are declared outside this file. Only what
    [project_client.go] uses of them is assumed: their zero value, the
    [ID] of a story, the [Comment{Text: ...}] literal, the [Query] method
    and the outcome of [json.Encoder.Encode]. *)

(** [json.NewEncoder(buffer).Encode(v)] on a fresh buffer: the bytes that
    reach the buffer and the error result. *)
Class JSONEncode (E A : Type) := json_Encode : A -> string * option E.
Global Hint Mode JSONEncode - ! : typeclass_instances.

Class Schema : Type := {
  (** non-nil values of the [error] interface *)
  error_value : Type;
  Pagination : Type;
  Pagination_Zero :: Zero Pagination;
  Story : Type;
  Story_Zero :: Zero Story;
  Story_ID : Story -> int;
  Story_JSON :: JSONEncode error_value Story;
  Task : Type;
  Task_Zero :: Zero Task;
  Task_JSON :: JSONEncode error_value Task;
  Comment : Type;
  Comment_Zero :: Zero Comment;
  Comment_JSON :: JSONEncode error_value Comment;
  (** the composite literal [Comment{Text: text}] *)
  Comment_with_Text : string -> Comment;
  Blocker : Type;
  Blocker_Zero :: Zero Blocker;
  Blocker_JSON :: JSONEncode error_value Blocker;
  Activity : Type;
  ProjectMembership : Type;
  float32 : Type;
  time_Time : Type;
  StoriesQuery : Type;
  StoriesQuery_Querier :: Querier StoriesQuery;
  ActivityQuery : Type;
  ActivityQuery_Querier :: Querier ActivityQuery;
  TaskQuery : Type;
  TaskQuery_Querier :: Querier TaskQuery;
  CommentsQuery : Type;
  CommentsQuery_Querier :: Querier CommentsQuery
}.

(** The [error] interface: [None] is [nil]. *)
Abbreviation error := (option error_value) (only parsing).

(** [*json.RawMessage]: a nil pointer or raw bytes. *)
Abbreviation json_RawMessage_ptr := (option string) (only parsing).

Record Iteration `{Sch : Schema} : Type := mkIteration {
  Iteration_Number : int;
  Iteration_ProjectID : int;
  Iteration_Length : int;
  Iteration_TeamStrength : float32;
  Iteration_Stories : slice Story;
  Iteration_Start : time_Time;
  Iteration_Finish : time_Time;
  Iteration_Velocity : float32;
  Iteration_Points : int;
  Iteration_AcceptedPoints : int;
  Iteration_EffectivePoints : float32;
  Iteration_Accepted : json_RawMessage_ptr;
  Iteration_Created : json_RawMessage_ptr;
  Iteration_Analytics : json_RawMessage_ptr;
  Iteration_Kind : string
}.

(** ** Requests

    What this file reads and writes of [*http.Request]. [Body] is the
    content of the reader installed as body, [None] when there is none.
    A request that [CreateRequest] returns without an error is taken to be
    a usable one (not nil, its header map allocated), as [http.NewRequest]
    makes them; the source dereferences it without a check. The request is
    a pointer in the source: attaching a body updates it in place, which
    is rendered here by passing the updated record on to [Do]. *)
Record Request : Type := mkRequest {
  Method : string;
  URL : string;
  Header : http_Header;
  Body : option string
}.

(** ** The transport

    The second argument of [Do] is an [interface{}]: [nil], or a pointer to
    the variable the response is decoded into. [out_kind] lists the pointers
    this file passes and [out_val] the type each points to; [Do] takes the
    variable's content and hands back what it holds afterwards. *)
Inductive out_kind : Type :=
| OutNil
| OutIterations | OutStories | OutActivities | OutTasks | OutComments
| OutMemberships
| OutStory | OutTask | OutComment | OutBlocker.

Definition out_val `{Sch : Schema} (k : out_kind) : Type :=
  match k with
  | OutNil => unit
  | OutIterations => slice Iteration
  | OutStories => slice Story
  | OutActivities => slice Activity
  | OutTasks => slice Task
  | OutComments => slice Comment
  | OutMemberships => slice ProjectMembership
  | OutStory => Story
  | OutTask => Task
  | OutComment => Comment
  | OutBlocker => Blocker
  end.

(** Stateful code over a transport state [St]. *)
Definition M (St A : Type) : Type := St -> St * A.

Global Instance M_ret {St} : MRet (M St) := λ A (a : A) s, (s, a).
Global Instance M_bind {St} : MBind (M St) := λ A B (k : A -> M St B) (m : M St A) s,
  let '(s', a) := m s in k a s'.

(** The [connection] interface. [CreateRequest] yields a request or an
    error (the source looks at the request only when the error is nil);
    [Do] yields the decoded value, a [Pagination] and an error. Both may
    read and change the state of the transport. *)
Record connection `{Sch : Schema} (St : Type) : Type := mkConnection {
  CreateRequest : string -> string -> option url_Values -> M St (Request + error_value);
  Do : Request -> forall k : out_kind, out_val k -> M St (out_val k * Pagination * error)
}.
Arguments CreateRequest {_ _} _ _ _ _.
Arguments Do {_ _} _ _ _ _.

Record ProjectClient `{Sch : Schema} (St : Type) : Type := mkProjectClient {
  ProjectClient_id : int;
  ProjectClient_conn : connection St
}.
Arguments mkProjectClient {_ _} _ _.
Arguments ProjectClient_id {_ _} _.
Arguments ProjectClient_conn {_ _} _.

(** The quote character, for JSON literals. *)
Definition dq : string := String "034"%char EmptyString.

(** The raw string literal of [DeliverStory]. *)
Definition delivered_body : string :=
  "{" +:+ dq +:+ "current_state" +:+ dq +:+ ":" +:+ dq +:+ "delivered" +:+ dq +:+ "}".

Section Client.
Context `{Sch : Schema} {St : Type}.
Implicit Types (p : ProjectClient St) (request : Request).

Definition createRequest p (method path : string) (params : option url_Values)
  : M St (Request + error_value) :=
  let projectPath := "/projects/" +:+ fmt_d (ProjectClient_id p) +:+ path in
  CreateRequest (ProjectClient_conn p) method projectPath params.

Definition addJSONBodyReader p request (body : string) : Request :=
  {| Method := Method request;
     URL := URL request;
     Header := Header_Add "Content-Type" "application/json" (Header request);
     Body := Some body |}.

Definition addJSONBody p request (body : string) : Request :=
  addJSONBodyReader p request body.

Definition Iterations p (query : IterationsQuery)
  : M St (slice Iteration * Pagination * error) :=
  r ← createRequest p "GET" "/iterations" (Some (Query query));
  match r with
  | inr err => mret (None, zero, Some err)
  | inl request =>
      '(iterations, pagination, err) ← Do (ProjectClient_conn p) request OutIterations None;
      match err with
      | Some _ => mret (None, zero, err)
      | None => mret (iterations, pagination, err)
      end
  end.

Definition Stories p (query : StoriesQuery)
  : M St (slice Story * Pagination * error) :=
  r ← createRequest p "GET" "/stories" (Some (Query query));
  match r with
  | inr err => mret (None, zero, Some err)
  | inl request =>
      '(stories, pagination, err) ← Do (ProjectClient_conn p) request OutStories None;
      match err with
      | Some _ => mret (None, zero, err)
      | None => mret (stories, pagination, err)
      end
  end.

Definition StoryActivity p (storyId : int) (query : ActivityQuery)
  : M St (slice Activity * error) :=
  let activities : slice Activity := None in
  let url := "/stories/" +:+ fmt_d storyId +:+ "/activity" in
  r ← createRequest p "GET" url (Some (Query query));
  match r with
  | inr err => mret (activities, Some err)
  | inl request =>
      '(activities, _, err) ← Do (ProjectClient_conn p) request OutActivities activities;
      mret (activities, err)
  end.

Definition StoryTasks p (storyId : int) (query : TaskQuery)
  : M St (slice Task * error) :=
  let tasks : slice Task := None in
  let url := "/stories/" +:+ fmt_d storyId +:+ "/tasks" in
  r ← createRequest p "GET" url (Some (Query query));
  match r with
  | inr err => mret (tasks, Some err)
  | inl request =>
      '(tasks, _, err) ← Do (ProjectClient_conn p) request OutTasks tasks;
      mret (tasks, err)
  end.

Definition StoryComments p (storyId : int) (query : CommentsQuery)
  : M St (slice Comment * error) :=
  let comments : slice Comment := None in
  let url := "/stories/" +:+ fmt_d storyId +:+ "/comments" in
  r ← createRequest p "GET" url (Some (Query query));
  match r with
  | inr err => mret (comments, Some err)
  | inl request =>
      '(comments, _, err) ← Do (ProjectClient_conn p) request OutComments comments;
      mret (comments, err)
  end.

Definition DeliverStory p (storyId : int) : M St error :=
  let url := "/stories/" +:+ fmt_d storyId in
  r ← createRequest p "PUT" url None;
  match r with
  | inr err => mret (Some err)
  | inl request =>
      let request := addJSONBody p request delivered_body in
      '(_, _, err) ← Do (ProjectClient_conn p) request OutNil tt;
      mret err
  end.

Definition DeliverStoryWithComment p (storyId : int) (comment : string)
  : M St error :=
  err ← DeliverStory p storyId;
  match err with
  | Some _ => mret err
  | None =>
      let url := "/stories/" +:+ fmt_d storyId +:+ "/comments" in
      r ← createRequest p "POST" url None;
      match r with
      | inr err => mret (Some err)
      | inl request =>
          let '(buffer, _) := json_Encode (Comment_with_Text comment) in
          let request := addJSONBodyReader p request buffer in
          '(_, _, err) ← Do (ProjectClient_conn p) request OutNil tt;
          mret err
      end
  end.

Definition CreateStory p (story : Story) : M St (Story * error) :=
  r ← createRequest p "POST" "/stories" None;
  match r with
  | inr err => mret (zero, Some err)
  | inl request =>
      let '(buffer, _) := json_Encode story in
      let request := addJSONBodyReader p request buffer in
      '(createdStory, _, err) ← Do (ProjectClient_conn p) request OutStory zero;
      mret (createdStory, err)
  end.

Definition UpdateStory p (story : Story) : M St (Story * error) :=
  let url := "/stories/" +:+ fmt_d (Story_ID story) in
  r ← createRequest p "PUT" url None;
  match r with
  | inr err => mret (zero, Some err)
  | inl request =>
      let '(buffer, _) := json_Encode story in
      let request := addJSONBodyReader p request buffer in
      '(updatedStory, _, err) ← Do (ProjectClient_conn p) request OutStory zero;
      mret (updatedStory, None)
  end.

Definition DeleteStory p (storyId : int) : M St error :=
  let url := "/stories/" +:+ fmt_d storyId in
  r ← createRequest p "DELETE" url None;
  match r with
  | inr err => mret (Some err)
  | inl request =>
      '(_, _, err) ← Do (ProjectClient_conn p) request OutNil tt;
      mret err
  end.

Definition CreateTask p (storyID : int) (task : Task) : M St (Task * error) :=
  let url := "/stories/" +:+ fmt_d storyID +:+ "/tasks" in
  r ← createRequest p "POST" url None;
  match r with
  | inr err => mret (zero, Some err)
  | inl request =>
      let '(buffer, _) := json_Encode task in
      let request := addJSONBodyReader p request buffer in
      '(createdTask, _, err) ← Do (ProjectClient_conn p) request OutTask zero;
      mret (createdTask, err)
  end.

Definition CreateComment p (storyID : int) (comment : Comment)
  : M St (Comment * error) :=
  let url := "/stories/" +:+ fmt_d storyID +:+ "/comments" in
  r ← createRequest p "POST" url None;
  match r with
  | inr err => mret (zero, Some err)
  | inl request =>
      let '(buffer, _) := json_Encode comment in
      let request := addJSONBodyReader p request buffer in
      '(createdComment, _, err) ← Do (ProjectClient_conn p) request OutComment zero;
      mret (createdComment, err)
  end.

Definition CreateBlocker p (storyID : int) (blocker : Blocker)
  : M St (Blocker * error) :=
  let url := "/stories/" +:+ fmt_d storyID +:+ "/blockers" in
  r ← createRequest p "POST" url None;
  match r with
  | inr err => mret (zero, Some err)
  | inl request =>
      let '(buffer, _) := json_Encode blocker in
      let request := addJSONBodyReader p request buffer in
      '(createdBlocker, _, err) ← Do (ProjectClient_conn p) request OutBlocker zero;
      mret (createdBlocker, err)
  end.

Definition ProjectMemberships p : M St (slice ProjectMembership * error) :=
  r ← createRequest p "GET" "/memberships" None;
  match r with
  | inr err => mret (Some [], Some err)
  | inl request =>
      '(memberships, _, err) ← Do (ProjectClient_conn p) request OutMemberships None;
      match err with
      | Some _ => mret (Some [], err)
      | None => mret (memberships, None)
      end
  end.

(** *** The public operations, as one type

    A call of a public method with its arguments, what it returns, and
    the error and payload parts of the result. *)
Inductive Operation : Type :=
| OpIterations (query : IterationsQuery)
| OpStories (query : StoriesQuery)
| OpStoryActivity (storyId : int) (query : ActivityQuery)
| OpStoryTasks (storyId : int) (query : TaskQuery)
| OpStoryComments (storyId : int) (query : CommentsQuery)
| OpDeliverStoryWithComment (storyId : int) (comment : string)
| OpDeliverStory (storyId : int)
| OpCreateStory (story : Story)
| OpUpdateStory (story : Story)
| OpDeleteStory (storyId : int)
| OpCreateTask (storyID : int) (task : Task)
| OpCreateComment (storyID : int) (comment : Comment)
| OpCreateBlocker (storyID : int) (blocker : Blocker)
| OpProjectMemberships.

Definition result_of (op : Operation) : Type :=
  match op with
  | OpIterations _ => (slice Iteration * Pagination * error)%type
  | OpStories _ => (slice Story * Pagination * error)%type
  | OpStoryActivity _ _ => (slice Activity * error)%type
  | OpStoryTasks _ _ => (slice Task * error)%type
  | OpStoryComments _ _ => (slice Comment * error)%type
  | OpDeliverStoryWithComment _ _ | OpDeliverStory _ | OpDeleteStory _ => error
  | OpCreateStory _ | OpUpdateStory _ => (Story * error)%type
  | OpCreateTask _ _ => (Task * error)%type
  | OpCreateComment _ _ => (Comment * error)%type
  | OpCreateBlocker _ _ => (Blocker * error)%type
  | OpProjectMemberships => (slice ProjectMembership * error)%type
  end.

Definition run p (op : Operation) : M St (result_of op) :=
  match op return M St (result_of op) with
  | OpIterations query => Iterations p query
  | OpStories query => Stories p query
  | OpStoryActivity storyId query => StoryActivity p storyId query
  | OpStoryTasks storyId query => StoryTasks p storyId query
  | OpStoryComments storyId query => StoryComments p storyId query
  | OpDeliverStoryWithComment storyId comment => DeliverStoryWithComment p storyId comment
  | OpDeliverStory storyId => DeliverStory p storyId
  | OpCreateStory story => CreateStory p story
  | OpUpdateStory story => UpdateStory p story
  | OpDeleteStory storyId => DeleteStory p storyId
  | OpCreateTask storyID task => CreateTask p storyID task
  | OpCreateComment storyID comment => CreateComment p storyID comment
  | OpCreateBlocker storyID blocker => CreateBlocker p storyID blocker
  | OpProjectMemberships => ProjectMemberships p
  end.

(** The [error] component of a result. *)
Definition error_of (op : Operation) : result_of op -> error :=
  match op return result_of op -> error with
  | OpIterations _ | OpStories _ => snd
  | OpStoryActivity _ _ | OpStoryTasks _ _ | OpStoryComments _ _ => snd
  | OpDeliverStoryWithComment _ _ | OpDeliverStory _ | OpDeleteStory _ => λ e, e
  | OpCreateStory _ | OpUpdateStory _ => snd
  | OpCreateTask _ _ | OpCreateComment _ _ | OpCreateBlocker _ _ => snd
  | OpProjectMemberships => snd
  end.

(** The payload of a result holds nothing: [nil] or an empty slice, the
    zero [Pagination], a zero record. *)
Definition payload_is_zero (op : Operation) : result_of op -> Prop :=
  match op return result_of op -> Prop with
  | OpIterations _ => λ r, r.1 = (None, zero)
  | OpStories _ => λ r, r.1 = (None, zero)
  | OpStoryActivity _ _ => λ r, r.1 = None
  | OpStoryTasks _ _ => λ r, r.1 = None
  | OpStoryComments _ _ => λ r, r.1 = None
  | OpDeliverStoryWithComment _ _ | OpDeliverStory _ | OpDeleteStory _ => λ _, True
  | OpCreateStory _ | OpUpdateStory _ => λ r, r.1 = zero
  | OpCreateTask _ _ => λ r, r.1 = zero
  | OpCreateComment _ _ => λ r, r.1 = zero
  | OpCreateBlocker _ _ => λ r, r.1 = zero
  | OpProjectMemberships => λ r, r.1 = None \/ r.1 = Some []
  end.

End Client.

Section Recording.
Context `{Sch : Schema} {St : Type}.
Implicit Types (p : ProjectClient St) (request : Request).

(** *** A transport that records its calls

    [recording c] behaves as [c] and appends every call, with what [c]
    answered, to a log kept next to the state of [c]. *)
Inductive Event : Type :=
| EvCreateRequest (method path : string) (params : option url_Values)
    (ret : Request + error_value)
| EvDo (request : Request) (out : out_kind) (pagination : Pagination) (err : error).

Definition recording (c : connection St) : connection (St * list Event) :=
  {| CreateRequest method path params := λ '(s, log),
       let '(s', ret) := CreateRequest c method path params s in
       ((s', (log ++ [EvCreateRequest method path params ret])%list), ret);
     Do request k out := λ '(s, log),
       let '(s', (v, pagination, err)) := Do c request k out s in
       ((s', (log ++ [EvDo request k pagination err])%list), (v, pagination, err)) |}.

Definition observed p : ProjectClient (St * list Event) :=
  mkProjectClient (ProjectClient_id p) (recording (ProjectClient_conn p)).

(** The calls an operation makes on the transport, in order. *)
Definition trace p (op : Operation) (s : St) : list Event :=
  (run (observed p) op (s, [])).1.2.

(** What the operation returns next to that trace. *)
Definition outcome p (op : Operation) (s : St) : result_of op :=
  (run (observed p) op (s, [])).2.

(** The error an event reports, if any. *)
Definition event_error (ev : Event) : error :=
  match ev with
  | EvCreateRequest _ _ _ (inr err) => Some err
  | EvCreateRequest _ _ _ (inl _) => None
  | EvDo _ _ _ err => err
  end.

Definition is_Do (ev : Event) : bool :=
  match ev with EvDo _ _ _ _ => true | _ => false end.

Definition is_CreateRequest (ev : Event) : bool :=
  match ev with EvCreateRequest _ _ _ _ => true | _ => false end.

(** A transport that answers as [c] but reports [f pagination] where [c]
    reports [pagination]. *)
Definition map_pagination (f : Pagination -> Pagination) (c : connection St)
  : connection St :=
  {| CreateRequest := CreateRequest c;
     Do request k out := λ s,
       let '(s', (v, pagination, err)) := Do c request k out s in
       (s', (v, f pagination, err)) |}.

End Recording.

Section Endpoints.
Context `{Sch : Schema}.

(** *** The endpoints as the specification lists them

    Method and path relative to [/projects/{id}] of each request an
    operation may issue, and whether the operation is one that sends a
    JSON body (the POST and PUT operations) or not (GET and DELETE). *)
Definition endpoints (op : Operation) : list (string * string) :=
  match op with
  | OpIterations _ => [("GET", "/iterations")]
  | OpStories _ => [("GET", "/stories")]
  | OpStoryActivity sid _ => [("GET", "/stories/" +:+ fmt_d sid +:+ "/activity")]
  | OpStoryTasks sid _ => [("GET", "/stories/" +:+ fmt_d sid +:+ "/tasks")]
  | OpStoryComments sid _ => [("GET", "/stories/" +:+ fmt_d sid +:+ "/comments")]
  | OpDeliverStoryWithComment sid _ =>
      [("PUT", "/stories/" +:+ fmt_d sid);
       ("POST", "/stories/" +:+ fmt_d sid +:+ "/comments")]
  | OpDeliverStory sid => [("PUT", "/stories/" +:+ fmt_d sid)]
  | OpCreateStory _ => [("POST", "/stories")]
  | OpUpdateStory story => [("PUT", "/stories/" +:+ fmt_d (Story_ID story))]
  | OpDeleteStory sid => [("DELETE", "/stories/" +:+ fmt_d sid)]
  | OpCreateTask sid _ => [("POST", "/stories/" +:+ fmt_d sid +:+ "/tasks")]
  | OpCreateComment sid _ => [("POST", "/stories/" +:+ fmt_d sid +:+ "/comments")]
  | OpCreateBlocker sid _ => [("POST", "/stories/" +:+ fmt_d sid +:+ "/blockers")]
  | OpProjectMemberships => [("GET", "/memberships")]
  end.


(** The outcome of JSON-encoding the payload of an operation that encodes
    one. *)
Definition encoded_payload (op : Operation) : option (string * error) :=
  match op with
  | OpCreateStory story | OpUpdateStory story => Some (json_Encode story)
  | OpCreateTask _ task => Some (json_Encode task)
  | OpCreateComment _ comment => Some (json_Encode comment)
  | OpCreateBlocker _ blocker => Some (json_Encode blocker)
  | OpDeliverStoryWithComment _ comment =>
      Some (json_Encode (Comment_with_Text comment))
  | _ => None
  end.

End Endpoints.

(** ** The stories query *)

(** Modelled from the spec: [StoriesQuery] and its [Query] method, which
    [project_client.go] uses and another file declares. Section 8 of the
    specification names the fields [Limit] and [Offset]; by sections 3, 4.1
    and 8 a zero field is left out and a non-zero numeric field appears
    under its key as a base-10 integer string. *)
Module SpecStoriesQuery.
Record t : Type := mk { Limit : int; Offset : int }.

Definition Query (query : t) : url_Values :=
  let params : url_Values := ∅ in
  let params :=
    if decide (Limit query ≠ 0) then Values_Set "limit" (fmt_d (Limit query)) params
    else params in
  let params :=
    if decide (Offset query ≠ 0) then Values_Set "offset" (fmt_d (Offset query)) params
    else params in
  params.
End SpecStoriesQuery.

Global Instance SpecStoriesQuery_Querier : Querier SpecStoriesQuery.t :=
  SpecStoriesQuery.Query.

(** A schema with the stories query of the specification in place of the
    one it came with; everything else is kept. *)
Definition with_SpecStoriesQuery (Sch : Schema) : Schema :=
  {| error_value := @error_value Sch;
     Pagination := @Pagination Sch;
     Pagination_Zero := @Pagination_Zero Sch;
     Story := @Story Sch;
     Story_Zero := @Story_Zero Sch;
     Story_ID := @Story_ID Sch;
     Story_JSON := @Story_JSON Sch;
     Task := @Task Sch;
     Task_Zero := @Task_Zero Sch;
     Task_JSON := @Task_JSON Sch;
     Comment := @Comment Sch;
     Comment_Zero := @Comment_Zero Sch;
     Comment_JSON := @Comment_JSON Sch;
     Comment_with_Text := @Comment_with_Text Sch;
     Blocker := @Blocker Sch;
     Blocker_Zero := @Blocker_Zero Sch;
     Blocker_JSON := @Blocker_JSON Sch;
     Activity := @Activity Sch;
     ProjectMembership := @ProjectMembership Sch;
     float32 := @float32 Sch;
     time_Time := @time_Time Sch;
     StoriesQuery := SpecStoriesQuery.t;
     StoriesQuery_Querier := SpecStoriesQuery_Querier;
     ActivityQuery := @ActivityQuery Sch;
     ActivityQuery_Querier := @ActivityQuery_Querier Sch;
     TaskQuery := @TaskQuery Sch;
     TaskQuery_Querier := @TaskQuery_Querier Sch;
     CommentsQuery := @CommentsQuery Sch;
     CommentsQuery_Querier := @CommentsQuery_Querier Sch |}.

(** ** A stub transport and schema, for concrete runs *)
Module Stub.

Record story : Type := mkStory { story_id : int; story_encodable : bool }.
Record note : Type := mkNote { note_text : string; note_encodable : bool }.

Definition newline : string := String "010"%char EmptyString.

(** Encoding fails on the values marked so, and then writes nothing;
    otherwise it writes one line of JSON. *)
Definition encode_story (s : story) : string * option string :=
  if story_encodable s then
    ("{" +:+ dq +:+ "id" +:+ dq +:+ ":" +:+ fmt_d (story_id s) +:+ "}" +:+ newline,
     None)
  else ("", Some "json: unsupported value").

Definition encode_note (n : note) : string * option string :=
  if note_encodable n then
    ("{" +:+ dq +:+ "text" +:+ dq +:+ ":" +:+ dq +:+ note_text n +:+ dq +:+ "}" +:+ newline,
     None)
  else ("", Some "json: unsupported value").

Definition schema : Schema :=
  {| error_value := string;
     Pagination := Z;
     Pagination_Zero := 0;
     Story := story;
     Story_Zero := mkStory 0 true;
     Story_ID := story_id;
     Story_JSON := encode_story;
     Task := note;
     Task_Zero := mkNote "" true;
     Task_JSON := encode_note;
     Comment := note;
     Comment_Zero := mkNote "" true;
     Comment_JSON := encode_note;
     Comment_with_Text := λ text, mkNote text true;
     Blocker := note;
     Blocker_Zero := mkNote "" true;
     Blocker_JSON := encode_note;
     Activity := string;
     ProjectMembership := string;
     float32 := Z;
     time_Time := Z;
     StoriesQuery := SpecStoriesQuery.t;
     StoriesQuery_Querier := SpecStoriesQuery_Querier;
     ActivityQuery := IterationsQuery;
     ActivityQuery_Querier := IterationsQuery_Query;
     TaskQuery := IterationsQuery;
     TaskQuery_Querier := IterationsQuery_Query;
     CommentsQuery := IterationsQuery;
     CommentsQuery_Querier := IterationsQuery_Query |}.

(** What the stub decodes into the destination of [Do]. *)
Definition decoded (k : out_kind) : @out_val schema k -> @out_val schema k :=
  match k return @out_val schema k -> @out_val schema k with
  | OutStories => λ _, Some [mkStory 7 true; mkStory 8 true]
  | OutActivities => λ _, Some ["edited"]
  | OutMemberships => λ _, Some ["owner"]
  | OutStory => λ _, mkStory 7 true
  | _ => λ v, v
  end.

(** The state counts the calls made so far; the [n]-th call fails with
    [create_err n], respectively [do_err n], when that is an error. *)
Definition conn (create_err do_err : nat -> option string)
  : @connection schema nat :=
  {| CreateRequest method path params := λ n,
       (S n,
        match create_err n return Request + @error_value schema with
        | Some err => inr err
        | None => inl {| Method := method;
                         URL := "https://tracker.test/services/v5" +:+ path;
                         Header := ∅;
                         Body := None |}
        end);
     Do request k out := λ n,
       (S n, (decoded k out, 42 : @Pagination schema, do_err n : option (@error_value schema))) |}.

Definition never : nat -> option string := λ _, None.
Definition at_call (i : nat) (err : string) : nat -> option string :=
  λ n, if decide (n = i) then Some err else None.

Definition client (create_err do_err : nat -> option string)
  : @ProjectClient schema nat :=
  mkProjectClient 99 (conn create_err do_err).



End Stub.

(** ** What each operation asks of the transport *)

Section Requests.
Context `{Sch : Schema}.

(** The third argument of the operation's [createRequest] calls: the map of
    its query value, or nil. *)
Definition query_params (op : Operation) : option url_Values :=
  match op with
  | OpIterations query => Some (Query query)
  | OpStories query => Some (Query query)
  | OpStoryActivity _ query => Some (Query query)
  | OpStoryTasks _ query => Some (Query query)
  | OpStoryComments _ query => Some (Query query)
  | _ => None
  end.

(** The second argument of the operation's [Do] calls: nil, or a pointer to
    the variable declared for the result. *)
Definition destination (op : Operation) : out_kind :=
  match op with
  | OpIterations _ => OutIterations
  | OpStories _ => OutStories
  | OpStoryActivity _ _ => OutActivities
  | OpStoryTasks _ _ => OutTasks
  | OpStoryComments _ _ => OutComments
  | OpDeliverStoryWithComment _ _ | OpDeliverStory _ | OpDeleteStory _ => OutNil
  | OpCreateStory _ | OpUpdateStory _ => OutStory
  | OpCreateTask _ _ => OutTask
  | OpCreateComment _ _ => OutComment
  | OpCreateBlocker _ _ => OutBlocker
  | OpProjectMemberships => OutMemberships
  end.

(** The story whose identifier the operation formats into its paths. *)
Definition story_of (op : Operation) : option int :=
  match op with
  | OpStoryActivity storyId _ | OpStoryTasks storyId _ | OpStoryComments storyId _
  | OpDeliverStoryWithComment storyId _ | OpDeliverStory storyId
  | OpDeleteStory storyId => Some storyId
  | OpUpdateStory story => Some (Story_ID story)
  | OpCreateTask storyID _ | OpCreateComment storyID _ | OpCreateBlocker storyID _ =>
      Some storyID
  | OpIterations _ | OpStories _ | OpCreateStory _ | OpProjectMemberships => None
  end.

(** The operations that check the error of [Do] and return fresh values
    when it is not nil. *)
Definition clears_on_Do_error (op : Operation) : bool :=
  match op with
  | OpIterations _ | OpStories _ | OpProjectMemberships => true
  | _ => false
  end.

(** What those operations return next to the error: a nil slice and the
    zero [Pagination], or the empty slice [[]ProjectMembership{}]. *)
Definition cleared_payload (op : Operation) : result_of op -> Prop :=
  match op return result_of op -> Prop with
  | OpIterations _ => λ r, r.1 = (None, zero)
  | OpStories _ => λ r, r.1 = (None, zero)
  | OpProjectMemberships => λ r, r.1 = Some []
  | _ => λ _, False
  end.

End Requests.

(** The request an event hands to [Do]. *)
Definition sent_request `{Sch : Schema} (ev : Event) : option Request :=
  match ev with
  | EvDo request _ _ _ => Some request
  | EvCreateRequest _ _ _ _ => None
  end.

(** No character of the string is a slash. *)
Fixpoint no_slash (s : string) : bool :=
  match s with
  | EmptyString => true
  | String c s' => if decide (c = "/"%char) then false else no_slash s'
  end.

(** * Properties *)

(** ** Formatting and parameter maps *)

Example fmt_d_ex : fmt_d 25 = "25" ∧ fmt_d 0 = "0" ∧ fmt_d (-3) = "-3".
Proof. repeat split; reflexivity. Qed.

(** [%d] tells integers apart. *)
Lemma fmt_d_inj (m n : int) : fmt_d m = fmt_d n → m = n.
Proof. unfold fmt_d. apply (inj pretty). Qed.

Lemma Values_Set_lookup (key value key' : string) (v : url_Values) :
  Values_Set key value v !! key'
  = if decide (key = key') then Some [value] else v !! key'.
Proof. unfold Values_Set. apply lookup_insert. Qed.

Example IterationsQuery_Query_ex :
  IterationsQuery_Query (mkIterationsQuery "done" "" 25 0)
  = {[ "scope" := ["done"]; "limit" := ["25"] ]}.
Proof. vm_compute. reflexivity. Qed.

(** C3. The parameter map of an [IterationsQuery] holds the key [scope],
    [label], [limit], [offset] exactly when the field [Scope], [Label],
    [Limit], [Offset] is not its zero value, bound to the field itself, for
    the numeric ones to its base-10 rendering; it holds no other key, and
    the zero query gives the empty map. *)
Theorem IterationsQuery_Query_spec (query : IterationsQuery) :
  let params : url_Values := Query query in
  (is_Some (params !! "scope") ↔ Scope query ≠ "") ∧
  (is_Some (params !! "label") ↔ Label query ≠ "") ∧
  (is_Some (params !! "limit") ↔ Limit query ≠ 0) ∧
  (is_Some (params !! "offset") ↔ Offset query ≠ 0) ∧
  params !! "scope"
    = (if decide (Scope query ≠ "") then Some [Scope query] else None) ∧
  params !! "label"
    = (if decide (Label query ≠ "") then Some [Label query] else None) ∧
  params !! "limit"
    = (if decide (Limit query ≠ 0) then Some [fmt_d (Limit query)] else None) ∧
  params !! "offset"
    = (if decide (Offset query ≠ 0) then Some [fmt_d (Offset query)] else None) ∧
  (∀ key : string,
      key ≠ "scope" → key ≠ "label" → key ≠ "limit" → key ≠ "offset" →
      params !! key = None) ∧
  Query (zero : IterationsQuery) = (∅ : url_Values).
Proof.
  assert (Hlookup : ∀ key : string,
    (Query query : url_Values) !! key
    = if decide (key = "offset") then
        (if decide (Offset query ≠ 0) then Some [fmt_d (Offset query)] else None)
      else if decide (key = "limit") then
        (if decide (Limit query ≠ 0) then Some [fmt_d (Limit query)] else None)
      else if decide (key = "label") then
        (if decide (Label query ≠ "") then Some [Label query] else None)
      else if decide (key = "scope") then
        (if decide (Scope query ≠ "") then Some [Scope query] else None)
      else None).
  { intros key. unfold Query, IterationsQuery_Querier, IterationsQuery_Query.
    repeat case_decide; subst;
      rewrite ?Values_Set_lookup; repeat case_decide;
      try congruence; try discriminate; try reflexivity; apply lookup_empty. }
  cbv zeta.
  assert (Hsome : ∀ (A : Type) (P : Prop) (d : Decision P) (x : A),
             is_Some (if d then Some x else None) ↔ P).
  { intros A P [HP|HP] x; split; intros H; try done; try (by eexists). }
  rewrite !Hlookup. simpl.
  split_and!; try apply Hsome; try reflexivity.
  intros key ? ? ? ?. rewrite Hlookup. by repeat case_decide.
Qed.

(** ** Running the operations against a recording transport *)

(** Unfold an operation down to the calls on the transport. *)
Ltac unfold_ops :=
  unfold trace, outcome, run, observed,
    Iterations, Stories, StoryActivity, StoryTasks, StoryComments,
    DeliverStoryWithComment, DeliverStory, CreateStory, UpdateStory,
    DeleteStory, CreateTask, CreateComment, CreateBlocker, ProjectMemberships,
    createRequest, addJSONBody, addJSONBodyReader, mbind, M_bind, mret, M_ret in *;
  cbn [recording CreateRequest Do ProjectClient_conn ProjectClient_id fst snd] in *.

(** Case analysis on the next answer of the transport. *)
Ltac next_call :=
  match goal with
  | |- context [CreateRequest ?c ?m ?path ?q ?s] =>
      let s' := fresh "s" in let r := fresh "r0" in
      let e := fresh "e" in let H := fresh "Hcreate" in
      destruct (CreateRequest c m path q s) as [s' [r|e]] eqn:H
  | |- context [Do ?c ?r ?k ?v ?s] =>
      let s' := fresh "s" in let v' := fresh "v" in let pg := fresh "pg" in
      let err := fresh "err" in let H := fresh "Hdo" in
      destruct (Do c r k v s) as [s' [[v' pg] [err|]]] eqn:H
  | |- context [json_Encode ?v] =>
      let b := fresh "bytes" in let e := fresh "encErr" in
      let H := fresh "Hencode" in
      destruct (json_Encode v) as [b e] eqn:H
  end;
  cbn [fst snd app recording CreateRequest Do ProjectClient_conn ProjectClient_id] in *.

Ltac exec := unfold_ops; repeat next_call.

(** Recording is transparent: against [recording c] an operation returns
    what it returns against [c] and leaves [c] in the same state. *)
Lemma recording_transparent `{Sch : Schema} {St : Type}
    (p : ProjectClient St) (op : Operation) (s : St) :
  run (observed p) op (s, [])
  = (((run p op s).1, trace p op s), (run p op s).2) ∧
  outcome p op s = (run p op s).2.
Proof.
  destruct op; exec; split; reflexivity.
Qed.

Example delivered_body_bytes :
  map nat_of_ascii (list_ascii_of_string delivered_body)
  = [123; 34; 99; 117; 114; 114; 101; 110; 116; 95; 115; 116; 97; 116; 101; 34;
     58; 34; 100; 101; 108; 105; 118; 101; 114; 101; 100; 34; 125]%nat.
Proof. reflexivity. Qed.

(** C5. [DeliverStory(storyId)] creates exactly one request, with method PUT,
    path [/projects/{id}/stories/{storyId}] and nil query parameters; the
    request it got is then sent once, with the JSON content type added and
    the body [{"current_state":"delivered"}], and with a nil destination;
    the transport sees no other call. *)
Theorem DeliverStory_one_request `{Sch : Schema} {St : Type}
    (p : ProjectClient St) (storyId : int) (s : St) :
  let path := "/projects/" +:+ fmt_d (ProjectClient_id p)
              +:+ "/stories/" +:+ fmt_d storyId in
  let ret := (CreateRequest (ProjectClient_conn p) "PUT" path None s).2 in
  let tr := trace p (OpDeliverStory storyId) s in
  filter is_CreateRequest tr = [EvCreateRequest "PUT" path None ret] ∧
  match ret with
  | inl r0 =>
      ∃ pagination err,
        tr = [EvCreateRequest "PUT" path None ret;
              EvDo {| Method := Method r0;
                      URL := URL r0;
                      Header := Header_Add "Content-Type" "application/json" (Header r0);
                      Body := Some delivered_body |}
                OutNil pagination err]
  | inr _ => tr = [EvCreateRequest "PUT" path None ret]
  end.
Proof.
  intros path ret tr. subst path ret tr. exec;
    (split; [reflexivity | try reflexivity; by do 2 eexists]).
Qed.

(** C2. [createRequest] hands the transport's [CreateRequest] the path
    [/projects/{id}] followed by the relative path, for every method, every
    relative path and every parameter map, and changes nothing else; every
    public operation starts with such a call, and every [CreateRequest] call
    it makes carries the prefix in front of one of its endpoints. *)
Theorem createRequest_prefixes_project `{Sch : Schema} {St : Type}
    (p : ProjectClient St) :
  let prefixed (rel : string) : string :=
    "/projects/" +:+ fmt_d (ProjectClient_id p) +:+ rel in
  (∀ (method path : string) (params : option url_Values) (s : St) (log : list Event),
      let answer := CreateRequest (ProjectClient_conn p) method (prefixed path) params s in
      createRequest (observed p) method path params (s, log)
      = ((answer.1, (log ++ [EvCreateRequest method (prefixed path) params answer.2])%list),
         answer.2)) ∧
  (∀ (op : Operation) (s : St),
      ∃ (method rel : string) params ret tl,
        trace p op s = EvCreateRequest method (prefixed rel) params ret :: tl) ∧
  (∀ (op : Operation) (s : St),
      Forall (λ ev, match ev with
                    | EvCreateRequest method path _ _ =>
                        ∃ rel : string,
                          (method, rel) ∈ endpoints op ∧ path = prefixed rel
                    | EvDo _ _ _ _ => True
                    end)
        (trace p op s)).
Proof.
  intros prefixed. subst prefixed. split_and!.
  - intros method path params s log. unfold createRequest, observed. cbn.
    by destruct (CreateRequest _ _ _ _ _) as [s' ret].
  - intros op s. destruct op; exec; by do 5 eexists.
  - intros op s. destruct op; exec;
      repeat (apply Forall_cons; split); try apply Forall_nil; try exact I;
      (eexists; split; last reflexivity; cbn [endpoints]; set_solver).
Qed.

(** Case analysis on the position of an event in a trace that is known. *)
Ltac at_position H i :=
  cbn in H;
  first
    [ discriminate H
    | destruct i as [|i];
      [ cbn in H; try discriminate H; try (injection H as ?; subst)
      | at_position H i ] ].






(** C8, as the specification words it, fails: [DeliverStoryWithComment]
    has already invoked [Do] for the delivery when the [CreateRequest] of its
    comment step returns an error. *)
Lemma CreateRequest_error_after_Do :
  ¬ (∀ (p : ProjectClient (Sch:=Stub.schema) nat) (op : Operation) (s : nat)
       (i : nat) method path params e,
        trace p op s !! i = Some (EvCreateRequest method path params (inr e)) →
        Forall (λ ev, is_Do ev = false) (trace p op s)).
Proof.
  intros Hnever.
  specialize (Hnever (Stub.client (Stub.at_call 2 "bad url") Stub.never)
                (OpDeliverStoryWithComment 42 "done") 0%nat 2%nat
                "POST" "/projects/99/stories/42/comments" None "bad url" eq_refl).
  apply Forall_cons_1 in Hnever as [_ Hnever].
  apply Forall_cons_1 in Hnever as [Hdo _].
  discriminate Hdo.
Qed.

(** C8. When a [CreateRequest] call of an operation fails, the call is the
    last one the operation makes on the transport, the operation returns that
    very error, and the payload next to it is the zero value. No [Do] call
    belongs to the request that could not be created: the only [Do] a trace
    with a failed [CreateRequest] can hold is that of the completed delivery
    step of [DeliverStoryWithComment]. *)
Theorem CreateRequest_error_surfaced `{Sch : Schema} {St : Type}
    (p : ProjectClient St) (op : Operation) (s : St)
    (i : nat) (method path : string) (params : option url_Values)
    (e : error_value) :
  let tr := trace p op s in
  tr !! i = Some (EvCreateRequest method path params (inr e)) →
  length tr = S i ∧
  error_of op (outcome p op s) = Some e ∧
  payload_is_zero op (outcome p op s) ∧
  (∀ (j : nat) request k pagination err,
      tr !! j = Some (EvDo request k pagination err) →
      j = 1%nat ∧ i = 2%nat ∧ method = "POST" ∧
      ∃ storyId comment, op = OpDeliverStoryWithComment storyId comment).
Proof.
  intros tr Hev. subst tr.
  destruct op; exec; at_position Hev i;
    (split_and!;
     [ reflexivity
     | reflexivity
     | cbn; try reflexivity; try exact I; by right
     | let j := fresh "j" in let Hdo := fresh "Hdo" in
       intros j ? ? ? ? Hdo; at_position Hdo j;
       split_and!; try reflexivity; by do 2 eexists ]).
Qed.

(** Two runs in which the transport refuses to create a request: that of
    [CreateStory], and that of the comment step after a delivery. *)
Lemma CreateRequest_error_surfaced_witness :
  let p := Stub.client (Stub.at_call 0 "bad url") Stub.never in
  let op := OpCreateStory (Sch:=Stub.schema) (Stub.mkStory 5 true) in
  let p' := Stub.client (Stub.at_call 2 "bad url") Stub.never in
  let op' := OpDeliverStoryWithComment (Sch:=Stub.schema) 42 "done" in
  (trace p op 0%nat
     = [EvCreateRequest (Sch:=Stub.schema)
          "POST" "/projects/99/stories" None (inr "bad url")] ∧
   error_of op (outcome p op 0%nat) = Some "bad url" ∧
   payload_is_zero op (outcome p op 0%nat)) ∧
  (length (trace p' op' 0%nat) = 3%nat ∧
   error_of op' (outcome p' op' 0%nat) = Some "bad url").
Proof.
  intros p op p' op'.
  destruct (CreateRequest_error_surfaced (Sch:=Stub.schema) p op 0%nat 0%nat
              "POST" "/projects/99/stories" None "bad url" eq_refl)
    as (_ & Herr & Hzero & _).
  destruct (CreateRequest_error_surfaced (Sch:=Stub.schema) p' op' 0%nat 2%nat
              "POST" "/projects/99/stories/42/comments" None "bad url" eq_refl)
    as (Hlen' & Herr' & _).
  split; [split; [reflexivity | split; [exact Herr | exact Hzero]] |].
  split; [exact Hlen' | exact Herr'].
Defined.

(** ** Errors of [Do] *)

(** X1. Every operation but [UpdateStory] returns the error a [Do] call
    reported, and makes no call after it. *)
Lemma Do_error_returned `{Sch : Schema} {St : Type}
    (p : ProjectClient St) (op : Operation) (s : St)
    (i : nat) request k pagination (e : error_value) :
  (∀ story, op ≠ OpUpdateStory story) →
  trace p op s !! i = Some (EvDo request k pagination (Some e)) →
  error_of op (outcome p op s) = Some e ∧ length (trace p op s) = S i.
Proof.
  intros Hop Hev.
  destruct op; try (by destruct (Hop story));
    exec; at_position Hev i; by split.
Qed.

(** [UpdateStory] returns an error only when the request could not be
    created; whatever [Do] reports is dropped. *)
Lemma UpdateStory_error `{Sch : Schema} {St : Type}
    (p : ProjectClient St) (story : Story) (s : St) :
  let path := "/projects/" +:+ fmt_d (ProjectClient_id p)
              +:+ "/stories/" +:+ fmt_d (Story_ID story) in
  (UpdateStory p story s).2.2
  = match (CreateRequest (ProjectClient_conn p) "PUT" path None s).2 with
    | inr e => Some e
    | inl _ => None
    end.
Proof. cbv zeta. exec; reflexivity. Qed.

(** C1. A run that breaks the propagation rule: the transport's [Do] fails
    with the error [boom] on the request of [UpdateStory], and [UpdateStory]
    returns a nil error next to the story. [CreateStory], run against the
    same transport, returns [boom]. *)
Theorem UpdateStory_drops_Do_error :
  let p := Stub.client Stub.never (Stub.at_call 1 "boom") in
  let story := Stub.mkStory 5 true in
  (∃ request pagination,
      trace p (OpUpdateStory (Sch:=Stub.schema) story) 0%nat
        !! 1%nat
      = Some (EvDo (Sch:=Stub.schema) request OutStory pagination (Some "boom"))) ∧
  (UpdateStory p story 0%nat).2.2 = None ∧
  (CreateStory p story 0%nat).2.2 = Some "boom".
Proof.
  cbv zeta. split; [by do 2 eexists | split; reflexivity].
Qed.

(** ** The composite operation *)

(** C4. [DeliverStoryWithComment] first runs [DeliverStory]. When that
    returns an error, the composite makes exactly the calls of [DeliverStory]
    (one [CreateRequest], at most one [Do]) and returns the same error. When
    it succeeds, the composite goes on with one [CreateRequest] for
    [POST /stories/{storyId}/comments] and, if that gave a request, one [Do]
    carrying the encoded comment; the error of the last call is returned and
    no call follows it. *)
Theorem DeliverStoryWithComment_sequence `{Sch : Schema} {St : Type}
    (p : ProjectClient St) (storyId : int) (comment : string) (s : St) :
  let deliver := trace p (OpDeliverStory storyId) s in
  let both := trace p (OpDeliverStoryWithComment storyId comment) s in
  let result : error := outcome p (OpDeliverStoryWithComment storyId comment) s in
  let path := "/projects/" +:+ fmt_d (ProjectClient_id p)
              +:+ "/stories/" +:+ fmt_d storyId +:+ "/comments" in
  match outcome p (OpDeliverStory storyId) s : error with
  | Some err =>
      both = deliver ∧
      result = Some err ∧
      length (filter is_CreateRequest both) = 1%nat ∧
      (length (filter is_Do both) ≤ 1)%nat
  | None =>
      ∃ ret,
        match ret with
        | inr e =>
            both = (deliver ++ [EvCreateRequest "POST" path None (inr e)])%list ∧
            result = Some e
        | inl r0 =>
            ∃ request pagination err,
              both = (deliver ++ [EvCreateRequest "POST" path None (inl r0);
                                  EvDo request OutNil pagination err])%list ∧
              Body request = Some (json_Encode (Comment_with_Text comment)).1 ∧
              Header request = Header_Add "Content-Type" "application/json" (Header r0) ∧
              result = err
        end
  end.
Proof.
  cbv zeta. exec; cbn.
  - split_and!; try reflexivity; simpl; lia.
  - eexists (inl _). by do 3 eexists.
  - eexists (inl _). by do 3 eexists.
  - by eexists (inr _).
  - split_and!; try reflexivity; simpl; lia.
Qed.

(** ** Listings *)

Example SpecStoriesQuery_Query_ex :
  SpecStoriesQuery.Query (SpecStoriesQuery.mk 10 20)
  = {[ "limit" := ["10"]; "offset" := ["20"] ]}.
Proof. vm_compute. reflexivity. Qed.

(** C7. When the request was created and [Do] reports no error, [Stories]
    and [Iterations] return exactly what [Do] answered: the slice it decoded
    and the [Pagination] it returned, with a nil error. Listing stories with
    [Limit] 10 and [Offset] 20 creates a GET request on
    [/projects/{id}/stories] whose parameters are [limit=10] and [offset=20]
    and nothing else. *)
Theorem listing_returns_what_Do_answered (Sch0 : Schema) {St : Type}
    (p : ProjectClient (Sch:=with_SpecStoriesQuery Sch0) St) (s : St) :
  let c := ProjectClient_conn p in
  let prefixed (rel : string) : string :=
    "/projects/" +:+ fmt_d (ProjectClient_id p) +:+ rel in
  (∀ (query : SpecStoriesQuery.t) (s1 : St) (r0 : Request),
      CreateRequest c "GET" (prefixed "/stories") (Some (Query query)) s = (s1, inl r0) →
      (Do c r0 OutStories None s1).2.2 = None →
      Stories p query s = Do c r0 OutStories None s1) ∧
  (∀ (query : IterationsQuery) (s1 : St) (r0 : Request),
      CreateRequest c "GET" (prefixed "/iterations") (Some (Query query)) s = (s1, inl r0) →
      (Do c r0 OutIterations None s1).2.2 = None →
      Iterations p query s = Do c r0 OutIterations None s1) ∧
  (∃ (params : url_Values) ret,
      trace p (OpStories (Sch:=with_SpecStoriesQuery Sch0) (SpecStoriesQuery.mk 10 20)) s
        !! 0%nat
        = Some (EvCreateRequest "GET" (prefixed "/stories") (Some params) ret) ∧
      params !! "limit" = Some ["10"] ∧
      params !! "offset" = Some ["20"] ∧
      dom params = {[ "limit"; "offset" ]}).
Proof.
  cbv zeta. split_and!.
  - intros query s1 r0 Hcreate Hdo. unfold_ops.
    change (Query (Querier:=StoriesQuery_Querier (Schema:=with_SpecStoriesQuery Sch0)) query)
      with (Query query).
    rewrite Hcreate.
    destruct (Do _ r0 OutStories None s1) as [s2 [[v pg] err]].
    cbn in Hdo. by subst err.
  - intros query s1 r0 Hcreate Hdo. unfold_ops. rewrite Hcreate.
    destruct (Do _ r0 OutIterations None s1) as [s2 [[v pg] err]].
    cbn in Hdo. by subst err.
  - assert (Hq : Query (SpecStoriesQuery.mk 10 20)
                 = ({[ "limit" := ["10"]; "offset" := ["20"] ]} : url_Values)).
    { vm_compute. reflexivity. }
    exec;
      change (Query (Querier:=StoriesQuery_Querier (Schema:=with_SpecStoriesQuery Sch0))
                (SpecStoriesQuery.mk 10 20))
        with (Query (SpecStoriesQuery.mk 10 20));
      (do 2 eexists; split; [reflexivity |]); rewrite Hq;
      (split_and!; [reflexivity | reflexivity | set_solver]).
Qed.

(** A transport that answers the listing with two stories and a
    [Pagination]. *)
Lemma listing_returns_what_Do_answered_witness :
  let p := Stub.client Stub.never Stub.never in
  Stories (Sch:=Stub.schema) p (SpecStoriesQuery.mk 10 20) 0%nat
    = (2%nat, (Some [Stub.mkStory 7 true; Stub.mkStory 8 true], 42, None)) ∧
  Iterations (Sch:=Stub.schema) p (mkIterationsQuery "" "" 10 20) 0%nat
    = (2%nat, (None, 42, None)).
Proof.
  intros p.
  destruct (listing_returns_what_Do_answered Stub.schema p 0%nat)
    as (Hstories & Hiterations & _).
  split.
  - etrans;
      [ exact (Hstories (SpecStoriesQuery.mk 10 20) 1%nat _ eq_refl eq_refl)
      | reflexivity ].
  - etrans;
      [ exact (Hiterations (mkIterationsQuery "" "" 10 20) 1%nat _ eq_refl eq_refl)
      | reflexivity ].
Defined.

(** ** Encoding errors *)

(** Whatever error an operation returns is one the transport reported in
    its last call. *)
Lemma error_provenance `{Sch : Schema} {St : Type}
    (p : ProjectClient St) (op : Operation) (s : St) :
  error_of op (outcome p op s) = None ∨
  ∃ ev, last (trace p op s) = Some ev ∧
        event_error ev = error_of op (outcome p op s).
Proof.
  destruct op; exec; cbn; first [ by left | right; by eexists ].
Qed.

(** C9. In the operations that encode a payload, the error of
    [json.Encoder.Encode] is dropped. Even when encoding fails, the
    operation asks the transport for the request of the payload (the
    composite once the delivery went through); a request that was created
    is sent, with the bytes that reached the buffer as its body, and the
    operation returns what it returns in any case: the error of that [Do]
    call ([UpdateStory]: nil), or that of [CreateRequest]. The error returned
    is thus nil or one reported by the transport, never that of the
    encoder. *)
Theorem encoding_error_discarded `{Sch : Schema} {St : Type}
    (p : ProjectClient St) (op : Operation) (s : St)
    (bytes : string) (encErr : error_value) :
  let tr := trace p op s in
  let result := error_of op (outcome p op s) in
  let for_payload (method : string) : Prop :=
    match op with
    | OpDeliverStoryWithComment _ _ => method = "POST"
    | _ => True
    end in
  let payload_call : nat :=
    match op with
    | OpDeliverStoryWithComment _ _ => 2%nat
    | _ => 0%nat
    end in
  let delivered : Prop :=
    match op with
    | OpDeliverStoryWithComment _ _ =>
        ∃ request k pagination, tr !! 1%nat = Some (EvDo request k pagination None)
    | _ => True
    end in
  encoded_payload op = Some (bytes, Some encErr) →
  (delivered →
   ∃ method path params ret,
     tr !! payload_call = Some (EvCreateRequest method path params ret) ∧
     for_payload method ∧
     match ret with
     | inl r0 =>
         ∃ request k pagination err,
           tr !! S payload_call = Some (EvDo request k pagination err) ∧
           Body request = Some bytes ∧
           result = match op with OpUpdateStory _ => None | _ => err end ∧
           length tr = S (S payload_call)
     | inr e => result = Some e ∧ length tr = S payload_call
     end) ∧
  (∀ (j : nat) method path params r0,
      tr !! j = Some (EvCreateRequest method path params (inl r0)) →
      for_payload method →
      ∃ request k pagination err,
        tr !! S j = Some (EvDo request k pagination err) ∧
        Body request = Some bytes ∧
        result = match op with OpUpdateStory _ => None | _ => err end) ∧
  (result = None ∨
   ∃ ev, last tr = Some ev ∧ event_error ev = result).
Proof.
  intros tr result for_payload payload_call delivered Henc.
  subst tr result for_payload payload_call delivered.
  split_and!; [| | apply error_provenance].
  - intros Hdelivered.
    destruct op; try discriminate Henc; cbn [encoded_payload] in Henc;
      exec; try (injection Henc as -> ->);
      first
        [ by (clear Hdelivered; do 4 eexists; split; [reflexivity |];
              split; [first [exact I | reflexivity] |];
              cbn; first [by split | by do 4 eexists])
        | destruct Hdelivered as (? & ? & ? & Hdelivered);
          cbn in Hdelivered; discriminate Hdelivered ].
  - intros j method path params r1 Hev Hfor.
    destruct op; try discriminate Henc; cbn [encoded_payload] in Henc;
      exec; at_position Hev j; try discriminate Hfor;
      injection Henc as -> ->; by do 4 eexists.
Qed.

(** A story whose encoding fails is posted with an empty body, and the
    answer of the transport is returned without an error. *)
Lemma encoding_error_discarded_witness :
  let p := Stub.client Stub.never Stub.never in
  let op := OpCreateStory (Sch:=Stub.schema) (Stub.mkStory 5 false) in
  encoded_payload op = Some ("", Some "json: unsupported value") ∧
  (∃ request k pagination,
      trace p op 0%nat !! 1%nat = Some (EvDo request k pagination None) ∧
      Body request = Some "") ∧
  (∃ method path params ret,
      trace p op 0%nat !! 0%nat = Some (EvCreateRequest method path params ret)) ∧
  outcome p op 0%nat = (Stub.mkStory 7 true, None).
Proof.
  intros p op.
  destruct (encoding_error_discarded (Sch:=Stub.schema) p op 0%nat
              "" "json: unsupported value" eq_refl) as (Hmade & Hsent & _).
  destruct (Hmade I) as (method & path & params & ret & Hcreate & _).
  destruct (Hsent 0%nat "POST" "/projects/99/stories" None _ eq_refl I)
    as (request & k & pagination & err & Hdo & Hbody & Herr).
  cbn in Herr. subst err.
  split; [reflexivity | split; [| split; [| reflexivity]]].
  - exists request, k, pagination. split; [exact Hdo | exact Hbody].
  - exists method, path, params, ret. exact Hcreate.
Defined.

(** ** Listings without pagination *)

(** C10. [StoryActivity], [StoryTasks], [StoryComments] and
    [ProjectMemberships] return the slice [Do] decoded and its error
    ([ProjectMemberships]: an empty slice when there is an error) and drop
    the [Pagination] [Do] returned: replacing the [Pagination] the transport
    reports by any other changes neither their result nor the state they
    leave. [Stories] and [Iterations] do hand it on. *)
Theorem pagination_discarded `{Sch : Schema} {St : Type}
    (p : ProjectClient St) (s : St) (f : Pagination → Pagination) :
  let c := ProjectClient_conn p in
  let q := mkProjectClient (ProjectClient_id p) (map_pagination f c) in
  let prefixed (rel : string) : string :=
    "/projects/" +:+ fmt_d (ProjectClient_id p) +:+ rel in
  let shaped {B : Type} (create : St * (Request + error_value))
      (k : out_kind) (v0 : out_val k)
      (shape : out_val k → error → B) (failed : error_value → B) : St * B :=
    match create with
    | (s1, inr e) => (s1, failed e)
    | (s1, inl r0) =>
        let '(s2, (v, _, err)) := Do c r0 k v0 s1 in (s2, shape v err)
    end in
  (∀ storyId query,
      StoryActivity q storyId query s = StoryActivity p storyId query s ∧
      StoryActivity p storyId query s
      = shaped
          (CreateRequest c "GET"
             (prefixed ("/stories/" +:+ fmt_d storyId +:+ "/activity"))
             (Some (Query query)) s)
          OutActivities None (λ v err, (v, err)) (λ e, (None, Some e))) ∧
  (∀ storyId query,
      StoryTasks q storyId query s = StoryTasks p storyId query s ∧
      StoryTasks p storyId query s
      = shaped
          (CreateRequest c "GET"
             (prefixed ("/stories/" +:+ fmt_d storyId +:+ "/tasks"))
             (Some (Query query)) s)
          OutTasks None (λ v err, (v, err)) (λ e, (None, Some e))) ∧
  (∀ storyId query,
      StoryComments q storyId query s = StoryComments p storyId query s ∧
      StoryComments p storyId query s
      = shaped
          (CreateRequest c "GET"
             (prefixed ("/stories/" +:+ fmt_d storyId +:+ "/comments"))
             (Some (Query query)) s)
          OutComments None (λ v err, (v, err)) (λ e, (None, Some e))) ∧
  (ProjectMemberships q s = ProjectMemberships p s ∧
   ProjectMemberships p s
   = shaped
       (CreateRequest c "GET" (prefixed "/memberships") None s)
       OutMemberships None
       (λ v err, match err with Some _ => (Some [], err) | None => (v, None) end)
       (λ e, (Some [], Some e))) ∧
  (∀ query,
      Stories q query s
      = let '(s', (v, pagination, err)) := Stories p query s in
        (s', (v, match err with Some _ => pagination | None => f pagination end, err))) ∧
  (∀ query,
      Iterations q query s
      = let '(s', (v, pagination, err)) := Iterations p query s in
        (s', (v, match err with Some _ => pagination | None => f pagination end, err))).
Proof.
  cbv zeta. split_and!; intros;
    unfold_ops; cbn [map_pagination CreateRequest Do];
    repeat next_call; try split; reflexivity.
Qed.

(** * Further properties *)

(** ** The parameter map determines the query *)

Lemma IterationsQuery_Query_lookup (query : IterationsQuery) (key : string) :
  (Query query : url_Values) !! key
  = if decide (key = "offset") then
      (if decide (Offset query ≠ 0) then Some [fmt_d (Offset query)] else None)
    else if decide (key = "limit") then
      (if decide (Limit query ≠ 0) then Some [fmt_d (Limit query)] else None)
    else if decide (key = "label") then
      (if decide (Label query ≠ "") then Some [Label query] else None)
    else if decide (key = "scope") then
      (if decide (Scope query ≠ "") then Some [Scope query] else None)
    else None.
Proof.
  unfold Query, IterationsQuery_Querier, IterationsQuery_Query.
  repeat case_decide; subst;
    rewrite ?Values_Set_lookup; repeat case_decide;
    try congruence; try discriminate; try reflexivity; apply lookup_empty.
Qed.

(** A field can be read back from its entry: absent means zero. *)
Lemma entry_inj {A : Type} `{EqDecision A} (zero_value a b : A) (render : A → string) :
  (∀ x y, render x = render y → x = y) →
  (if decide (a ≠ zero_value) then Some [render a] else None)
  = (if decide (b ≠ zero_value) then Some [render b] else None) →
  a = b.
Proof.
  intros Hinj. destruct (decide (a ≠ zero_value)) as [Ha|Ha],
    (decide (b ≠ zero_value)) as [Hb|Hb]; intros Heq; try discriminate Heq.
  - injection Heq as Heq. by apply Hinj.
  - apply dec_stable in Ha. apply dec_stable in Hb. congruence.
Qed.

(** X6. Two iterations queries that differ in a field give different parameter
    maps: nothing of the query is lost in [Query]. *)
Theorem IterationsQuery_Query_distinct (q1 q2 : IterationsQuery) :
  q1 ≠ q2 → (Query q1 : url_Values) ≠ Query q2.
Proof.
  intros Hne Heq. apply Hne.
  assert (Hkey : ∀ key : string,
             (Query q1 : url_Values) !! key = (Query q2 : url_Values) !! key)
    by (intros key; by rewrite Heq).
  pose proof (Hkey "scope") as Hscope.
  pose proof (Hkey "label") as Hlabel.
  pose proof (Hkey "limit") as Hlimit.
  pose proof (Hkey "offset") as Hoffset.
  rewrite !IterationsQuery_Query_lookup in Hscope, Hlabel, Hlimit, Hoffset.
  simpl in Hscope, Hlabel, Hlimit, Hoffset.
  apply (entry_inj "" _ _ (λ x, x)) in Hscope; [| done].
  apply (entry_inj "" _ _ (λ x, x)) in Hlabel; [| done].
  apply (entry_inj 0 _ _ fmt_d) in Hlimit; [| apply fmt_d_inj].
  apply (entry_inj 0 _ _ fmt_d) in Hoffset; [| apply fmt_d_inj].
  destruct q1, q2; simpl in *; congruence.
Qed.

(** A query for ten iterations and one for twenty. *)
Lemma IterationsQuery_Query_distinct_witness :
  (Query (mkIterationsQuery "" "" 10 0) : url_Values)
  ≠ Query (mkIterationsQuery "" "" 20 0).
Proof.
  apply IterationsQuery_Query_distinct. discriminate.
Defined.

(** ** Paths *)

Lemma append_cons (c : ascii) (s t : string) :
  String c s +:+ t = String c (s +:+ t).
Proof. reflexivity. Qed.

Lemma append_empty_r (s : string) : s +:+ "" = s.
Proof.
  induction s as [|c s IH]; [done |]. by rewrite append_cons, IH.
Qed.

Lemma no_slash_app (s t : string) :
  no_slash (s +:+ t) = no_slash s && no_slash t.
Proof.
  induction s as [|c s IH]; [done |].
  rewrite append_cons. simpl. by destruct (decide _).
Qed.

Lemma pretty_N_go_no_slash (x : N) (s : string) :
  no_slash s = true → no_slash (pretty_N_go x s) = true.
Proof.
  revert s. induction (N.lt_wf_0 x) as [x _ IH]; intros s Hs.
  assert (x = 0 ∨ 0 < x)%N as [->|Hpos] by lia.
  - by rewrite pretty_N_go_0.
  - rewrite pretty_N_go_step by done. apply IH.
    { by apply N.div_lt. }
    simpl. rewrite Hs. unfold pretty_N_char.
    by repeat case_match.
Qed.

(** [%d] writes digits and a sign, never a slash. *)
Lemma fmt_d_no_slash (n : int) : no_slash (fmt_d n) = true.
Proof.
  unfold fmt_d, pretty, pretty_Z.
  assert (Hpos : ∀ x : positive, no_slash (pretty x) = true).
  { intros x. unfold pretty, pretty_positive, pretty, pretty_N.
    case_decide; [done |]. by apply pretty_N_go_no_slash. }
  destruct n as [|x|x]; [done | apply Hpos |].
  rewrite no_slash_app, Hpos. done.
Qed.

(** A string without slashes, followed by nothing or by a slash and more,
    can be split in one way only. *)
Lemma split_at_slash (s1 s2 t1 t2 : string) :
  no_slash s1 = true → no_slash s2 = true →
  (t1 = "" ∨ ∃ t, t1 = String "/" t) →
  (t2 = "" ∨ ∃ t, t2 = String "/" t) →
  s1 +:+ t1 = s2 +:+ t2 → s1 = s2 ∧ t1 = t2.
Proof.
  revert s2. induction s1 as [|c1 s1 IH]; intros [|c2 s2];
    rewrite ?append_cons; change ("" +:+ t1) with t1; change ("" +:+ t2) with t2;
    simpl; intros H1 H2 Ht1 Ht2 Heq.
  - done.
  - destruct (decide (c2 = "/"%char)) as [->|Hc]; [done |].
    destruct Ht1 as [->|[t ->]]; [done |]. congruence.
  - destruct (decide (c1 = "/"%char)) as [->|Hc]; [done |].
    destruct Ht2 as [->|[t ->]]; [done |]. congruence.
  - destruct (decide (c1 = "/"%char)); [done |].
    destruct (decide (c2 = "/"%char)); [done |].
    injection Heq as -> Heq.
    destruct (IH s2 H1 H2 Ht1 Ht2 Heq) as [-> ->]. done.
Qed.

(** Every [CreateRequest] call of an operation is for one of its
    endpoints, under the prefix of the project. *)
Lemma CreateRequest_event_endpoint `{Sch : Schema} {St : Type}
    (p : ProjectClient St) (op : Operation) (s : St)
    (i : nat) method path params ret :
  trace p op s !! i = Some (EvCreateRequest method path params ret) →
  ∃ rel : string,
    (method, rel) ∈ endpoints op ∧
    path = "/projects/" +:+ fmt_d (ProjectClient_id p) +:+ rel.
Proof.
  assert (Hall : Forall (λ ev, match ev with
                    | EvCreateRequest method path _ _ =>
                        ∃ rel : string,
                          (method, rel) ∈ endpoints op ∧
                          path = "/projects/" +:+ fmt_d (ProjectClient_id p) +:+ rel
                    | EvDo _ _ _ _ => True
                    end) (trace p op s)).
  { destruct op; exec;
      repeat (apply Forall_cons; split); try apply Forall_nil; try exact I;
      (eexists; split; last reflexivity; cbn [endpoints]; set_solver). }
  intros Hev. exact (Forall_lookup_1 _ _ _ _ Hall Hev).
Qed.

(** The relative path of an endpoint names the story of the operation right
    after [/stories/], or is one of the three paths without a story. *)
Lemma endpoints_shape `{Sch : Schema} (op : Operation) (method rel : string) :
  (method, rel) ∈ endpoints op →
  (∃ rel0, rel = String "/" rel0) ∧
  match story_of op with
  | Some storyId =>
      ∃ t, rel = "/stories/" +:+ fmt_d storyId +:+ t ∧
           (t = "" ∨ ∃ t0, t = String "/" t0)
  | None => rel = "/iterations" ∨ rel = "/stories" ∨ rel = "/memberships"
  end.
Proof.
  intros Hin.
  destruct op; cbn [endpoints story_of] in *;
    repeat (apply elem_of_cons in Hin as [Hin|Hin];
            [injection Hin as -> -> |]);
    try (by apply elem_of_nil in Hin);
    (split; [by eexists |]);
    try (by auto);
    first [ by (exists ""; rewrite append_empty_r; auto)
          | by (eexists; split; [reflexivity | right; by eexists]) ].
Qed.

(** X9. The request line identifies what is addressed: when two operations, on
    any two clients, call [CreateRequest] with the same method and the same
    path, the clients are bound to the same project, the operations address
    the same story (or none), and they use the same endpoint. *)
Theorem request_line_identifies_target `{Sch : Schema} {St St' : Type}
    (p : ProjectClient St) (p' : ProjectClient St') (op op' : Operation)
    (s : St) (s' : St') (i i' : nat) (method path : string)
    params params' ret ret' :
  trace p op s !! i = Some (EvCreateRequest method path params ret) →
  trace p' op' s' !! i' = Some (EvCreateRequest method path params' ret') →
  ProjectClient_id p = ProjectClient_id p' ∧
  story_of op = story_of op' ∧
  ∃ rel, (method, rel) ∈ endpoints op ∧ (method, rel) ∈ endpoints op'.
Proof.
  intros Hev Hev'.
  apply CreateRequest_event_endpoint in Hev as (rel & Hin & Hpath).
  apply CreateRequest_event_endpoint in Hev' as (rel' & Hin' & Hpath').
  rewrite Hpath in Hpath'. apply (inj _) in Hpath'.
  destruct (endpoints_shape op method rel Hin) as [Hroot Hshape].
  destruct (endpoints_shape op' method rel' Hin') as [Hroot' Hshape'].
  apply split_at_slash in Hpath' as [Hid Hrel];
    [| apply fmt_d_no_slash .. | by right | by right].
  apply fmt_d_inj in Hid. subst rel'.
  split; [done |]. split; [| by exists rel].
  destruct (story_of op) as [a|], (story_of op') as [b|]; [| | | done].
  - destruct Hshape as (t & -> & Ht), Hshape' as (t' & Heq & Ht').
    apply (inj _) in Heq.
    apply split_at_slash in Heq as [Hab _]; [| apply fmt_d_no_slash .. | done | done].
    by apply fmt_d_inj in Hab as ->.
  - destruct Hshape as (t & -> & _).
    destruct Hshape' as [Heq|[Heq|Heq]]; cbv [append] in Heq; discriminate Heq.
  - destruct Hshape' as (t & -> & _).
    destruct Hshape as [Heq|[Heq|Heq]]; cbv [append] in Heq; discriminate Heq.
Qed.

(** Delivering story 42 and updating story 42 in project 99. *)
Lemma request_line_identifies_target_witness :
  let p := Stub.client Stub.never Stub.never in
  let deliver := OpDeliverStory (Sch:=Stub.schema) 42 in
  let update := OpUpdateStory (Sch:=Stub.schema) (Stub.mkStory 42 true) in
  story_of deliver = story_of update ∧
  ∃ rel, ("PUT", rel) ∈ endpoints deliver ∧ ("PUT", rel) ∈ endpoints update.
Proof.
  intros p deliver update.
  destruct (request_line_identifies_target (Sch:=Stub.schema)
              p p deliver update 0%nat 0%nat 0%nat 0%nat
              "PUT" "/projects/99/stories/42" None None
              (inl (mkRequest "PUT"
                      "https://tracker.test/services/v5/projects/99/stories/42"
                      ∅ None))
              (inl (mkRequest "PUT"
                      "https://tracker.test/services/v5/projects/99/stories/42"
                      ∅ None))
              eq_refl eq_refl) as (_ & Hstory & Hrel).
  split; [exact Hstory | exact Hrel].
Defined.

(** ** The calls an operation makes *)

(** X3. An operation calls the transport at most twice,
    [DeliverStoryWithComment] at most four times, and the calls alternate:
    [CreateRequest], [Do], and for the composite [CreateRequest], [Do] once
    more. No call is repeated. *)
Theorem call_budget `{Sch : Schema} {St : Type}
    (p : ProjectClient St) (op : Operation) (s : St) :
  let pattern :=
    match op with
    | OpDeliverStoryWithComment _ _ => [true; false; true; false]
    | _ => [true; false]
    end in
  (is_CreateRequest <$> trace p op s) `prefix_of` pattern.
Proof.
  cbv zeta. destruct op; exec; cbn; by eexists.
Qed.

(** X4. Every [CreateRequest] call of an operation carries the parameter map of
    its query value, or nil when the operation takes none, and every [Do]
    call the destination of the operation: nil for the operations that
    return an error only, so that the response to a delivery, to the comment
    of [DeliverStoryWithComment] and to a deletion is never decoded. *)
Theorem transport_arguments `{Sch : Schema} {St : Type}
    (p : ProjectClient St) (op : Operation) (s : St) :
  Forall (λ ev, match ev with
                | EvCreateRequest _ _ params _ => params = query_params op
                | EvDo _ k _ _ => k = destination op
                end)
    (trace p op s).
Proof.
  destruct op; exec;
    repeat (apply Forall_cons; split); try apply Forall_nil; reflexivity.
Qed.

(** ** A failing [Do] *)

(** A run of [DeleteStory] in which [Do] fails. *)
Lemma Do_error_returned_witness :
  let p := Stub.client Stub.never (Stub.at_call 1 "boom") in
  let op := OpDeleteStory (Sch:=Stub.schema) 42 in
  error_of op (outcome p op 0%nat) = Some "boom" ∧
  length (trace p op 0%nat) = 2%nat.
Proof.
  intros p op.
  refine (Do_error_returned (Sch:=Stub.schema) p op 0%nat 1%nat
            (mkRequest "DELETE"
               "https://tracker.test/services/v5/projects/99/stories/42" ∅ None)
            OutNil 42 "boom" _ eq_refl).
  intros story. discriminate.
Defined.

(** X5. [Iterations], [Stories] and [ProjectMemberships] return nothing of what
    [Do] stored in the destination when [Do] reports an error: a nil slice
    and the zero [Pagination], respectively an empty slice that is not
    nil. *)
Theorem Do_error_clears_listing `{Sch : Schema} {St : Type}
    (p : ProjectClient St) (op : Operation) (s : St)
    (i : nat) request k pagination (e : error_value) :
  clears_on_Do_error op = true →
  trace p op s !! i = Some (EvDo request k pagination (Some e)) →
  cleared_payload op (outcome p op s) ∧
  error_of op (outcome p op s) = Some e.
Proof.
  intros Hop Hev.
  destruct op; try discriminate Hop;
    exec; at_position Hev i; cbn; split; reflexivity.
Qed.

(** The stub decodes two stories, respectively one membership, and then
    fails: none is returned. *)
Lemma Do_error_clears_listing_witness :
  let p := Stub.client Stub.never (Stub.at_call 1 "boom") in
  let op := OpStories (Sch:=Stub.schema) (SpecStoriesQuery.mk 10 20) in
  let op' := OpProjectMemberships (Sch:=Stub.schema) in
  outcome p op 0%nat = (None, 0, Some "boom") ∧
  outcome p op' 0%nat = (Some [], Some "boom").
Proof.
  intros p op op'.
  destruct (Do_error_clears_listing (Sch:=Stub.schema) p op 0%nat 1%nat
              (mkRequest "GET"
                 "https://tracker.test/services/v5/projects/99/stories" ∅ None)
              OutStories 42 "boom" eq_refl eq_refl) as [Hzero Herr].
  destruct (Do_error_clears_listing (Sch:=Stub.schema) p op' 0%nat 1%nat
              (mkRequest "GET"
                 "https://tracker.test/services/v5/projects/99/memberships" ∅ None)
              OutMemberships 42 "boom" eq_refl eq_refl) as [Hzero' Herr'].
  split; reflexivity.
Defined.

(** ** Attaching a body *)

(** X7. [addJSONBodyReader] replaces the body, leaves method, URL and every
    other header alone, and puts [application/json] behind the values the
    [Content-Type] header already has. [Header.Get] therefore keeps reading
    an earlier value when there is one, and attaching twice leaves the value
    twice. *)
Theorem addJSONBodyReader_effect `{Sch : Schema} {St : Type}
    (p : ProjectClient St) (request : Request) (body body' : string) :
  let request' := addJSONBodyReader p request body in
  let before := default [] (Header request !! "Content-Type") in
  Body request' = Some body ∧
  Method request' = Method request ∧
  URL request' = URL request ∧
  (∀ key : string, key ≠ "Content-Type" →
                   Header request' !! key = Header request !! key) ∧
  Header request' !! "Content-Type" = Some (before ++ ["application/json"])%list ∧
  Header_Get "Content-Type" (Header request')
  = match before with
    | value :: _ => value
    | [] => "application/json"
    end ∧
  Header (addJSONBodyReader p request' body') !! "Content-Type"
  = Some (before ++ ["application/json"; "application/json"])%list ∧
  Body (addJSONBodyReader p request' body') = Some body'.
Proof.
  cbv zeta. unfold addJSONBodyReader, Header_Add, Header_Get. cbn.
  rewrite !lookup_insert_eq. cbn.
  split_and!; try reflexivity.
  - intros key Hkey. by rewrite lookup_insert_ne.
  - by destruct (Header request !! "Content-Type") as [[|value values]|].
  - by rewrite <- app_assoc.
Qed.

(** ** The comment step of the composite *)

(** X8. After a successful delivery [DeliverStoryWithComment] goes on as
    [CreateComment] would for the comment [Comment{Text: comment}]: the same
    [CreateRequest] call with the same answer, and the same request handed
    to [Do]. *)
Theorem comment_step_as_CreateComment `{Sch : Schema} {St : Type}
    (p : ProjectClient St) (storyId : int) (comment : string) (s s1 : St) :
  DeliverStory p storyId s = (s1, None) →
  let both := trace p (OpDeliverStoryWithComment storyId comment) s in
  let alone := trace p (OpCreateComment storyId (Comment_with_Text comment)) s1 in
  both !! 2%nat = alone !! 0%nat ∧
  (both !! 3%nat ≫= sent_request) = (alone !! 1%nat ≫= sent_request) ∧
  length both = (2 + length alone)%nat.
Proof.
  intros Hdeliver. cbv zeta. unfold_ops.
  destruct (CreateRequest _ "PUT" _ None s) as [s0 [r0|e]] eqn:Hcreate;
    cbn in *; [| discriminate Hdeliver].
  destruct (Do _ _ OutNil () s0) as [s2 [[v pg] err]] eqn:Hdo.
  cbn in *. injection Hdeliver as -> ->.
  repeat next_call; cbn; done.
Qed.

(** Delivering story 42 with a comment on a transport that always answers. *)
Lemma comment_step_as_CreateComment_witness :
  let p := Stub.client Stub.never Stub.never in
  let both : list (Event (Sch:=Stub.schema)) :=
    trace p (OpDeliverStoryWithComment (Sch:=Stub.schema) 42 "done") 0%nat in
  let alone : list (Event (Sch:=Stub.schema)) :=
    trace p (OpCreateComment (Sch:=Stub.schema) 42 (Stub.mkNote "done" true)) 2%nat in
  both !! 2%nat = alone !! 0%nat ∧
  (both !! 3%nat ≫= sent_request (Sch:=Stub.schema))
  = (alone !! 1%nat ≫= sent_request (Sch:=Stub.schema)) ∧
  length both = 4%nat.
Proof.
  intros p both alone.
  destruct (comment_step_as_CreateComment (Sch:=Stub.schema)
              p 42 "done" 0%nat 2%nat eq_refl) as (Hcreate & Hdo & Hlen).
  split; [exact Hcreate | split; [exact Hdo | exact Hlen]].
Defined.

(** ** What a nil error means *)

(** X2. When an operation other than [UpdateStory] returns a nil error, every
    call it made on the transport succeeded and the exchange is complete:
    one request was created and sent, two for [DeliverStoryWithComment]. *)
Theorem nil_error_means_complete `{Sch : Schema} {St : Type}
    (p : ProjectClient St) (op : Operation) (s : St) :
  (∀ story, op ≠ OpUpdateStory story) →
  error_of op (outcome p op s) = None →
  Forall (λ ev, event_error ev = None) (trace p op s) ∧
  is_CreateRequest <$> trace p op s
  = match op with
    | OpDeliverStoryWithComment _ _ => [true; false; true; false]
    | _ => [true; false]
    end.
Proof.
  intros Hop Herr.
  destruct op; try (by destruct (Hop story));
    exec; cbn in Herr; try discriminate Herr;
    (split; [repeat (apply Forall_cons; split); by try apply Forall_nil
            | reflexivity]).
Qed.

(** Listing the tasks of story 42 on a transport that always answers. *)
Lemma nil_error_means_complete_witness :
  let p := Stub.client Stub.never Stub.never in
  let op := OpStoryTasks (Sch:=Stub.schema) 42 (mkIterationsQuery "" "" 0 0) in
  Forall (λ ev, event_error ev = None) (trace p op 0%nat) ∧
  is_CreateRequest <$> trace p op 0%nat = [true; false].
Proof.
  intros p op.
  refine (nil_error_means_complete (Sch:=Stub.schema) p op 0%nat _ eq_refl).
  intros story. discriminate.
Defined.

(** ** What is read of a payload *)

(** X10. The operations that send a record read it only through the bytes of
    its JSON encoding, [UpdateStory] also through its [ID]: two records with
    the same encoding (and [ID]) lead to the same calls, the same result and
    the same state, whatever else differs in them. *)
Theorem payload_read_through_encoding `{Sch : Schema} {St : Type}
    (p : ProjectClient St) (s : St) :
  (∀ a b : Story,
      (json_Encode a).1 = (json_Encode b).1 →
      CreateStory p a s = CreateStory p b s) ∧
  (∀ a b : Story,
      Story_ID a = Story_ID b →
      (json_Encode a).1 = (json_Encode b).1 →
      UpdateStory p a s = UpdateStory p b s) ∧
  (∀ (storyID : int) (a b : Task),
      (json_Encode a).1 = (json_Encode b).1 →
      CreateTask p storyID a s = CreateTask p storyID b s) ∧
  (∀ (storyID : int) (a b : Comment),
      (json_Encode a).1 = (json_Encode b).1 →
      CreateComment p storyID a s = CreateComment p storyID b s) ∧
  (∀ (storyID : int) (a b : Blocker),
      (json_Encode a).1 = (json_Encode b).1 →
      CreateBlocker p storyID a s = CreateBlocker p storyID b s) ∧
  (∀ (storyId : int) (a b : string),
      (json_Encode (Comment_with_Text a)).1 = (json_Encode (Comment_with_Text b)).1 →
      DeliverStoryWithComment p storyId a s = DeliverStoryWithComment p storyId b s).
Proof.
  split_and!; intros;
    unfold_ops;
    repeat match goal with
           | H : Story_ID _ = Story_ID _ |- _ => rewrite H; clear H
           | H : (json_Encode ?a).1 = (json_Encode ?b).1 |- _ =>
               destruct (json_Encode a), (json_Encode b); cbn in H; subst
           end;
    reflexivity.
Qed.

(** Two stories that the stub cannot encode are posted alike. *)
Lemma payload_read_through_encoding_witness :
  let p := Stub.client Stub.never Stub.never in
  CreateStory (Sch:=Stub.schema) p (Stub.mkStory 5 false) 0%nat
  = CreateStory (Sch:=Stub.schema) p (Stub.mkStory 6 false) 0%nat.
Proof.
  intros p.
  destruct (payload_read_through_encoding (Sch:=Stub.schema) p 0%nat)
    as (Hcreate & _).
  exact (Hcreate (Stub.mkStory 5 false) (Stub.mkStory 6 false) eq_refl).
Defined.
